(** * Detection post-processing of coco-ssd/src/index.ts

    A shallow embedding of the post-processing half of [ObjectDetection]:
    [calculateMaxScores], [calculateMaxScoresYolov5], [getConfidenceYoloV5],
    [getBoxesYoloV5], [buildDetectedObjects] and the two branches of [infer].

    Numbers.  A JavaScript number that is finite is modelled by an exact
    rational ([Qc]); rounding and overflow of binary64/binary32 arithmetic
    are not part of the model.  A value that is not a finite number
    ([undefined] read past the end of an array, [NaN], the result of a
    division by zero) is [None].  Comparisons with such a value are false
    and arithmetic on it stays [None], as in JavaScript. *)

From Stdlib Require Import ZArith QArith Qcanon Lia.
From stdpp Require Import base numbers option list gmap strings sorting.

Local Open Scope Z_scope.

(** ** Numbers and typed arrays *)

Module Js.

Abbreviation num := (option Qc).

Abbreviation Float32Array := (list (option Qc)).

(** [Number.MIN_VALUE]: the smallest positive binary64 number, 2^-1074. *)
Definition MIN_VALUE : Qc := Q2Qc (1 # 2 ^ 1074).

Definition of_Z (n : Z) : num := Some (Qc_of_Z n).

(** [a > b] on numbers; false as soon as one side is not a number. *)
Definition gt (a b : num) : bool :=
  match a, b with
  | Some x, Some y => match (x ?= y)%Qc with Gt => true | _ => false end
  | _, _ => false
  end.

Definition lift2 (f : Qc → Qc → Qc) (a b : num) : num :=
  match a, b with
  | Some x, Some y => Some (f x y)
  | _, _ => None
  end.

Definition mul : num → num → num := lift2 Qcmult.
Definition sub : num → num → num := lift2 Qcminus.
Definition add : num → num → num := lift2 Qcplus.

(** [a / b]; a zero divisor gives a non-finite value. *)
Definition div (a b : num) : num :=
  match a, b with
  | Some x, Some y => if decide (y = 0%Qc) then None else Some (x / y)%Qc
  | _, _ => None
  end.

(** [a[i]] for an array of numbers: [undefined] outside the array. *)
Definition get (a : Float32Array) (i : Z) : num :=
  if i <? 0 then None else default None (a !! Z.to_nat i).

(** [a[i]] for an array of arbitrary values. *)
Definition at_ {A} (a : list A) (i : Z) : option A :=
  if i <? 0 then None else a !! Z.to_nat i.

(** [for (let i = start; i < start + n; i++) s = body i s] *)
Fixpoint for_from {S} (n : nat) (i : Z) (body : Z → S → S) (s : S) : S :=
  match n with
  | O => s
  | Datatypes.S n' => for_from n' (i + 1) body (body i s)
  end.

(** [for (let i = 0; i < bound; i++) s = body i s] *)
Definition for_lt {S} (bound : Z) (body : Z → S → S) (s : S) : S :=
  for_from (Z.to_nat bound) 0 body s.

End Js.

Notation "a .[ i ]" := (Js.get a i) (at level 1, left associativity, format "a .[ i ]").

(** ** Score and class extraction *)

(** One step of the inner scan, [v] being the entry read at class [j]:
    [if (v > max) { max = v; index = j; }]. *)
Definition scan_step (v : Js.num) (j : Z) (st : Js.num * Z) : Js.num * Z :=
  let '(max, index) := st in
  if Js.gt v max then (v, j) else (max, index).

(** The index expression of the packed extractor. *)
Definition yolov5ScoreIndex (i numClasses j : Z) : Z :=
  i * numClasses + (i + 1) * 5 + j.

(** [maxes[i] = max] with [i] equal to the current length appends. *)
Definition calculateMaxScores (scores : Js.Float32Array)
    (numBoxes numClasses : Z) : list Js.num * list Z :=
  Js.for_lt numBoxes (λ i '(maxes, classes),
    let '(max, index) :=
      Js.for_lt numClasses (λ j st, scan_step scores.[i * numClasses + j] j st)
        (Some Js.MIN_VALUE, -1) in
    (maxes ++ [max], classes ++ [index])) ([], []).

Definition calculateMaxScoresYolov5 (scores : Js.Float32Array)
    (numBoxes numClasses : Z) : list Z :=
  snd (Js.for_lt numBoxes (λ i '(maxes, classes),
    let '(max, index) :=
      Js.for_lt numClasses
        (λ j st, scan_step scores.[yolov5ScoreIndex i numClasses j] j st)
        (Some Js.MIN_VALUE, -1) in
    (maxes ++ [max], classes ++ [index])) ([], [])).

Definition getConfidenceYoloV5 (scores : Js.Float32Array)
    (numBoxes numClasses : Z) : list Js.num :=
  Js.for_lt numBoxes (λ i confidences,
    confidences ++ [scores.[i * (numClasses + 5) + 4]]) [].

(** [boxes[i * 4 + r] = ...] for r = 0..3 with [i * 4] equal to the current
    length appends four entries. *)
Definition getBoxesYoloV5 (scores : Js.Float32Array)
    (numBoxes numClasses : Z) (scale_by : Js.num) : Js.Float32Array :=
  Js.for_lt numBoxes (λ i boxes,
    let x := scores.[i * (numClasses + 5) + 0] in
    let y := scores.[i * (numClasses + 5) + 1] in
    let width := scores.[i * (numClasses + 5) + 2] in
    let height := scores.[i * (numClasses + 5) + 3] in
    let x1 := Js.div (Js.sub x (Js.div width (Js.of_Z 2))) scale_by in
    let y1 := Js.div (Js.sub y (Js.div height (Js.of_Z 2))) scale_by in
    let x2 := Js.div (Js.add x (Js.div width (Js.of_Z 2))) scale_by in
    let y2 := Js.div (Js.add y (Js.div height (Js.of_Z 2))) scale_by in
    boxes ++ [y1; x1; y2; x2]) [].

(** ** The packed row layout as documented

    Each anchor row is [numClasses + 5] wide: four box fields, one
    confidence, then the class fields. *)

(** Position of class field [j] of row [i] under the documented stride. *)
Definition packedClassSlot (i numClasses j : Z) : Z :=
  i * (numClasses + 5) + 5 + j.

(** The class fields of row [i], in order. *)
Definition rowClassFields (scores : Js.Float32Array) (numClasses i : Z)
    : list Js.num :=
  (λ j, scores.[packedClassSlot i numClasses j]) <$> seqZ 0 numClasses.

(** Running maximum over a row given on its own. *)
Definition scanRow (row : list Js.num) : Js.num * Z :=
  Js.for_lt (Z.of_nat (length row)) (λ j st, scan_step row.[j] j st)
    (Some Js.MIN_VALUE, -1).

(** The packed extractor as the documented layout words it: for each row,
    the running maximum over the row's class fields. *)
Definition maxClassOfPackedRows (scores : Js.Float32Array)
    (numBoxes numClasses : Z) : list Z :=
  (λ i, snd (scanRow (rowClassFields scores numClasses i))) <$> seqZ 0 numBoxes.

(** The dense and packed inner scans, anchor by anchor. *)
Definition denseScan (scores : Js.Float32Array) (numClasses i : Z) : Js.num * Z :=
  Js.for_lt numClasses (λ j st, scan_step scores.[i * numClasses + j] j st)
    (Some Js.MIN_VALUE, -1).

Definition yolov5Scan (scores : Js.Float32Array) (numClasses i : Z) : Js.num * Z :=
  Js.for_lt numClasses
    (λ j st, scan_step scores.[yolov5ScoreIndex i numClasses j] j st)
    (Some Js.MIN_VALUE, -1).

(** State of the scan after the classes below [n] of the row [f]: the
    running maximum is a number and bounds every number of the row seen so
    far; either nothing exceeded the start value, which is still the
    maximum, or [index] is the first position holding the maximum. *)
Definition scanned (f : Z → Js.num) (n : Z) (st : Js.num * Z) : Prop :=
  ∃ m, st.1 = Some m ∧
    (∀ j v, 0 ≤ j < n → f j = Some v → (v ≤ m)%Qc) ∧
    ((st.2 = -1 ∧ m = Js.MIN_VALUE) ∨
     (0 ≤ st.2 < n ∧ f st.2 = Some m ∧ (Js.MIN_VALUE < m)%Qc ∧
      ∀ j v, 0 ≤ j < st.2 → f j = Some v → (v < m)%Qc)).

(** The four corners decoded for anchor [i], in the order they are stored. *)
Definition decodedCorners (scores : Js.Float32Array) (numClasses : Z)
    (scale_by : Js.num) (i : Z) : list Js.num :=
  let x := scores.[i * (numClasses + 5) + 0] in
  let y := scores.[i * (numClasses + 5) + 1] in
  let width := scores.[i * (numClasses + 5) + 2] in
  let height := scores.[i * (numClasses + 5) + 3] in
  [Js.div (Js.sub y (Js.div height (Js.of_Z 2))) scale_by;
   Js.div (Js.sub x (Js.div width (Js.of_Z 2))) scale_by;
   Js.div (Js.add y (Js.div height (Js.of_Z 2))) scale_by;
   Js.div (Js.add x (Js.div width (Js.of_Z 2))) scale_by].

(** ** Exceptions *)

(** A call either returns a value or throws. *)
Inductive outcome (A : Type) : Type :=
  | Returns (a : A)
  | Throws (e : string).
Arguments Returns {A} a.
Arguments Throws {A} e.

Definition obind {A B} (m : outcome A) (k : A → outcome B) : outcome B :=
  match m with
  | Returns a => k a
  | Throws e => Throws e
  end.

Notation "'let*' x := m 'in' k" := (obind m (λ x, k))
  (at level 10, x name, m at level 100, k at level 200).

(** [o.displayName] on a possibly [undefined] object. *)
Definition TypeError_undefined : string :=
  "TypeError: Cannot read properties of undefined".

(** ** Assembling the detections *)

(** Modelled from the spec: the entries of the class table ([./classes] is
    not part of the sources at hand); an entry carries the display name the
    assembler reads. *)
Record ObjectDetectionClass : Type := { displayName : string }.

Record DetectedObject : Type := {
  bbox : Js.num * Js.num * Js.num * Js.num;  (* [x, y, width, height] *)
  class : string;
  score : Js.num
}.

(** The body of the loop of [buildDetectedObjects] for the kept index
    [k = indexes[i]].  [CLASSES[c + 1]] is [undefined] when the key is absent
    (also when [classes[k]] itself is [undefined]), and reading
    [displayName] off it throws. *)
Definition detectedObject (CLASSES : gmap Z ObjectDetectionClass)
    (width height : Js.num) (boxes : Js.Float32Array) (scores : list Js.num)
    (classes : list Z) (k : Z) : outcome DetectedObject :=
  let bbox0 := boxes.[k * 4 + 0] in
  let bbox1 := boxes.[k * 4 + 1] in
  let bbox2 := boxes.[k * 4 + 2] in
  let bbox3 := boxes.[k * 4 + 3] in
  let minY := Js.mul bbox0 height in
  let minX := Js.mul bbox1 width in
  let maxY := Js.mul bbox2 height in
  let maxX := Js.mul bbox3 width in
  match Js.at_ classes k ≫= λ c, CLASSES !! (c + 1) with
  | Some entry =>
      Returns {| bbox := (minX, minY, Js.sub maxX minX, Js.sub maxY minY);
                 class := displayName entry;
                 score := scores.[k] |}
  | None => Throws TypeError_undefined
  end.

(** [indexes] holds the kept anchor indices, integers stored in a typed
    array; [objects.push] appends. *)
Definition buildDetectedObjects (CLASSES : gmap Z ObjectDetectionClass)
    (width height : Js.num) (boxes : Js.Float32Array) (scores : list Js.num)
    (indexes : list Z) (classes : list Z) : outcome (list DetectedObject) :=
  let count := Z.of_nat (length indexes) in
  Js.for_lt count (λ i acc,
    let* objects := acc in
    match Js.at_ indexes i with
    | Some k =>
        let* object := detectedObject CLASSES width height boxes scores classes k in
        Returns (objects ++ [object])
    | None => Throws TypeError_undefined
    end) (Returns []).

(** ** Running a list of calls in order *)

Fixpoint traverse {A B} (f : A → outcome B) (l : list A) : outcome (list B) :=
  match l with
  | [] => Returns []
  | x :: l' =>
      let* y := f x in
      let* ys := traverse f l' in
      Returns (y :: ys)
  end.

(** ** The two branches of [infer] *)

(** What the inference engine hands back: flat data and declared shape. *)
Record Tensor : Type := { data : Js.Float32Array; shape : list Z }.

(** The image given to [detect]; only its pixel dimensions matter here. *)
Record Image : Type := { imgWidth : Z; imgHeight : Z }.

(** [result[k]]: using an absent tensor throws. *)
Definition tensorAt (result : list Tensor) (k : Z) : outcome Tensor :=
  match Js.at_ result k with
  | Some t => Returns t
  | None => Throws TypeError_undefined
  end.

(** [t.shape[k]].  With an absent dimension the extractors' loops do not
    run and the tensor construction before suppression rejects the shape,
    so the call ends in an exception all the same. *)
Definition dim (t : Tensor) (k : Z) : outcome Z :=
  match Js.at_ (shape t) k with
  | Some d => Returns d
  | None => Throws "Error: invalid shape"
  end.

Section infer.
(** The class table of [./classes]. *)
Variable CLASSES : gmap Z ObjectDetectionClass.

(** The suppression stage, [tf.tensor2d] followed by
    [tf.image.nonMaxSuppression] and [dataSync]: boxes, their declared
    shape, scores, [maxNumBoxes], [nmsThresh], [minScore]. *)
Variable suppress :
  Js.Float32Array → Z * Z → list Js.num → Z → Qc → Qc → outcome (list Z).

Definition infer_yolov5 (result : list Tensor) (maxNumBoxes : Z)
    (nmsThresh minScore : Qc) (inputSize : Js.num)
    : outcome (list DetectedObject) :=
  let chosen_result_tensor := 1 in
  let* chosen := tensorAt result chosen_result_tensor in
  let yolov5_result := data chosen in
  let* num_objects := dim chosen 1 in
  let* shape2 := dim chosen 2 in
  let num_classes := shape2 - 5 in
  let yolov5classes :=
    calculateMaxScoresYolov5 yolov5_result num_objects num_classes in
  let yolov5_confidence :=
    getConfidenceYoloV5 yolov5_result num_objects num_classes in
  let yolov5_box_corners :=
    getBoxesYoloV5 yolov5_result num_objects num_classes inputSize in
  let* yolov5_indexes :=
    suppress yolov5_box_corners (num_objects, 4) yolov5_confidence
      maxNumBoxes nmsThresh minScore in
  buildDetectedObjects CLASSES (Js.of_Z 640) (Js.of_Z 480)
    yolov5_box_corners yolov5_confidence yolov5_indexes yolov5classes.

Definition infer_ssd (img : Image) (result : list Tensor) (maxNumBoxes : Z)
    (nmsThresh minScore : Qc) : outcome (list DetectedObject) :=
  let height := imgHeight img in
  let width := imgWidth img in
  let* result0 := tensorAt result 0 in
  let scores := data result0 in
  let* result1 := tensorAt result 1 in
  let boxes := data result1 in
  let* shape01 := dim result0 1 in
  let* shape02 := dim result0 2 in
  let '(maxScores, classes) := calculateMaxScores scores shape01 shape02 in
  let* shape11 := dim result1 1 in
  let* shape13 := dim result1 3 in
  let* indexes :=
    suppress boxes (shape11, shape13) maxScores maxNumBoxes nmsThresh minScore in
  buildDetectedObjects CLASSES (Js.of_Z width) (Js.of_Z height)
    boxes maxScores indexes classes.

(** [infer]: [img] is the image given by the caller, [result] what the
    engine returned for it. *)
Definition infer (base : string) (img : Image) (result : list Tensor)
    (maxNumBoxes : Z) (nmsThresh minScore : Qc) (inputSize : Js.num)
    : outcome (list DetectedObject) :=
  if decide (base = "yolov5s")
  then infer_yolov5 result maxNumBoxes nmsThresh minScore inputSize
  else infer_ssd img result maxNumBoxes nmsThresh minScore.

(** [detect] with its default arguments spelled out by the caller. *)
Definition detect (base : string) (img : Image) (result : list Tensor)
    (maxNumBoxes : Z) (nmsThresh minScore : Qc) (inputSize : Js.num)
    : outcome (list DetectedObject) :=
  infer base img result maxNumBoxes nmsThresh minScore inputSize.
End infer.

(** ** The suppressor *)

Module Suppressor.

Local Open Scope Qc_scope.

(** Modelled from the spec: a decoded box, corners [(y1, x1, y2, x2)]
    (section 3). *)
Definition Box : Type := Qc * Qc * Qc * Qc.

(** Modelled from the spec: smaller and larger of two coordinates, for the
    overlap of section 4.4. *)
Definition qmin (a b : Qc) : Qc := if decide (a ≤ b) then a else b.
Definition qmax (a b : Qc) : Qc := if decide (a ≤ b) then b else a.

(** Modelled from the spec: signed area of a corner box. *)
Definition area (b : Box) : Qc :=
  let '(y1, x1, y2, x2) := b in (y2 - y1) * (x2 - x1).

(** Modelled from the spec: intersection over union on corner boxes
    (section 4.4); a box of zero or negative area has zero overlap with
    anything.  The suppression routine itself belongs to the tensor library
    and is not part of the sources at hand. *)
Definition iou (a b : Box) : Qc :=
  if decide (area a ≤ 0) then 0
  else if decide (area b ≤ 0) then 0
  else
    let '(ay1, ax1, ay2, ax2) := a in
    let '(by1, bx1, by2, bx2) := b in
    let ih := qmax 0 (qmin ay2 by2 - qmax ay1 by1) in
    let iw := qmax 0 (qmin ax2 bx2 - qmax ax1 bx1) in
    let inter := ih * iw in
    inter / (area a + area b - inter).

(** Modelled from the spec: the flat box sequence, four numbers per box at
    [anchorIndex*4 + {0,1,2,3}] (section 3). *)
Definition coord (boxes : list Qc) (i : nat) : Qc := default 0 (boxes !! i).

Definition boxAt (boxes : list Qc) (k : nat) : Box :=
  (coord boxes (4 * k), coord boxes (4 * k + 1),
   coord boxes (4 * k + 2), coord boxes (4 * k + 3)).

(** Modelled from the spec: a candidate, box index and ranking score. *)
Definition Candidate : Type := nat * Qc.

(** Modelled from the spec: step 2 of section 4.4, candidates by descending
    score; a candidate goes behind those of equal score that were there
    before it, so equal scores stay in index order. *)
Fixpoint insertByScore (c : Candidate) (l : list Candidate) : list Candidate :=
  match l with
  | [] => [c]
  | d :: l' => if decide (d.2 < c.2) then c :: d :: l' else d :: insertByScore c l'
  end.

(** Modelled from the spec: step 2 of section 4.4 on a whole list. *)
Definition sortByScore (l : list Candidate) : list Candidate :=
  foldr insertByScore [] l.

(** Modelled from the spec: steps 3 and 4 of section 4.4.  Take the best
    remaining candidate, drop the remaining ones that overlap it by more
    than the threshold, go on until none is left or [room] is used up. *)
Fixpoint select (boxes : list Qc) (iouThreshold : Qc) (room : nat)
    (cands : list Candidate) : list Candidate :=
  match room with
  | O => []
  | S room' =>
      match cands with
      | [] => []
      | c :: rest =>
          c :: select boxes iouThreshold room'
                 (filter (λ d, ¬ (iouThreshold < iou (boxAt boxes c.1) (boxAt boxes d.1)))
                    rest)
      end
  end.

(** Modelled from the spec: greedy suppression as laid out in section 4.4,
    step 1 discarding every box whose score is below [minScore]. *)
Definition nonMaxSuppression (boxes : list Qc) (scores : list Qc)
    (maxOutputCount : Z) (iouThreshold minScore : Qc) : list Z :=
  let candidates := filter (λ c : Candidate, ¬ (c.2 < minScore)) (imap pair scores) in
  let sorted := sortByScore candidates in
  (λ c : Candidate, Z.of_nat c.1)
    <$> select boxes iouThreshold (Z.to_nat maxOutputCount) sorted.

(** Modelled from the spec: the stage as the pipeline calls it.  A buffer
    whose length disagrees with the declared shape aborts the call
    (section 7); so does, here, an entry that is not a number, on which the
    spec is silent. *)
Definition suppress (boxes : Js.Float32Array) (shape : Z * Z)
    (scores : list Js.num) (maxNumBoxes : Z) (nmsThresh minScore : Qc)
    : outcome (list Z) :=
  if decide (Z.of_nat (length boxes) = (shape.1 * shape.2)%Z ∧ shape.2 = 4%Z
             ∧ Z.of_nat (length scores) = shape.1)
  then
    match mapM id boxes, mapM id scores with
    | Some bs, Some ss => Returns (nonMaxSuppression bs ss maxNumBoxes nmsThresh minScore)
    | _, _ => Throws "Error: not a number"
    end
  else Throws "Error: shape mismatch".

(** Modelled from the spec: the order of the output, descending score. *)
Definition descending (a b : Candidate) : Prop := b.2 ≤ a.2.

End Suppressor.

(** ** The engine's answer, read the way [infer] reads it *)

(** [result[1]] is there with shape [[_, n, w]]. *)
Definition yolov5Output (result : list Tensor) (t : Tensor) (n w : Z) : Prop :=
  tensorAt result 1 = Returns t ∧ dim t 1 = Returns n ∧ dim t 2 = Returns w.

(** [result[0]] is there with shape [[_, n, c]] and [result[1]] with shape
    [[_, r, _, cols]]. *)
Definition ssdOutput (result : list Tensor) (t0 t1 : Tensor) (n c r cols : Z) : Prop :=
  tensorAt result 0 = Returns t0 ∧ tensorAt result 1 = Returns t1 ∧
  dim t0 1 = Returns n ∧ dim t0 2 = Returns c ∧
  dim t1 1 = Returns r ∧ dim t1 3 = Returns cols.

(** The class entry the assembler reads for the kept index [k]. *)
Definition classEntry (CLASSES : gmap Z ObjectDetectionClass)
    (classes : list Z) (k : Z) : option ObjectDetectionClass :=
  Js.at_ classes k ≫= λ c, CLASSES !! (c + 1).

(** Every emitted object carries the display name found in the class table
    at its class index plus [offset]. *)
Definition looksUpAt (offset : Z) (CLASSES : gmap Z ObjectDetectionClass)
    (classes indexes : list Z) (objects : list DetectedObject) : Prop :=
  Forall2 (λ k object, ∃ c entry,
    Js.at_ classes k = Some c ∧ CLASSES !! (c + offset) = Some entry ∧
    class object = displayName entry) indexes objects.

(** The packed branch of [infer] labels its objects at [offset]. *)
Definition packedLooksUpAt (offset : Z) : Prop :=
  ∀ CLASSES suppress img result t n w maxNumBoxes nmsThresh minScore inputSize
    indexes objects,
    yolov5Output result t n w →
    suppress (getBoxesYoloV5 (data t) n (w - 5) inputSize) (n, 4)
      (getConfidenceYoloV5 (data t) n (w - 5)) maxNumBoxes nmsThresh minScore
    = Returns indexes →
    infer CLASSES suppress "yolov5s" img result maxNumBoxes nmsThresh minScore inputSize
    = Returns objects →
    looksUpAt offset CLASSES (calculateMaxScoresYolov5 (data t) n (w - 5))
      indexes objects.

(** The dense branch of [infer] labels its objects at [offset]. *)
Definition denseLooksUpAt (offset : Z) : Prop :=
  ∀ CLASSES suppress base img result t0 t1 n c r cols
    maxNumBoxes nmsThresh minScore inputSize indexes objects,
    base ≠ "yolov5s" →
    ssdOutput result t0 t1 n c r cols →
    suppress (data t1) (r, cols) (calculateMaxScores (data t0) n c).1
      maxNumBoxes nmsThresh minScore
    = Returns indexes →
    infer CLASSES suppress base img result maxNumBoxes nmsThresh minScore inputSize
    = Returns objects →
    looksUpAt offset CLASSES (calculateMaxScores (data t0) n c).2 indexes objects.

(** ** Deciding equality of results, to evaluate the code on given inputs *)

Global Instance ObjectDetectionClass_eq_dec : EqDecision ObjectDetectionClass.
Proof. solve_decision. Defined.
Global Instance DetectedObject_eq_dec : EqDecision DetectedObject.
Proof. solve_decision. Defined.
Global Instance outcome_eq_dec {A} `{EqDecision A} : EqDecision (outcome A).
Proof. solve_decision. Defined.

(** Closes an equation between closed terms by evaluation. *)
Ltac evaluates :=
  match goal with
  | |- ?P => apply (bool_decide_eq_true_1 P); vm_compute; reflexivity
  end.

(** Rationals written as fractions. *)
Definition frac (a : Z) (b : positive) : Js.num := Some (Q2Qc (a # b)).

(** ** Sample inputs *)

(** The first three entries of the COCO label table. *)
Definition sampleClasses : gmap Z ObjectDetectionClass :=
  list_to_map [(1, {| displayName := "person" |});
               (2, {| displayName := "bicycle" |});
               (3, {| displayName := "car" |})].

(** A packed answer with one anchor and two classes: centre (320, 320),
    size 256 x 256, confidence 0.9, class scores 0.1 and 0.8. *)
Definition yolov5Row : Tensor :=
  {| data := [Js.of_Z 320; Js.of_Z 320; Js.of_Z 256; Js.of_Z 256;
              frac 9 10; frac 1 10; frac 8 10];
     shape := [1; 1; 7] |}.

Definition yolov5Sample : list Tensor :=
  [ {| data := []; shape := [1; 3; 0; 7] |}; yolov5Row ].

(** A dense answer with two anchors and three classes: box A with best
    score 0.9 at class 1, box B with best score 0.4 at class 0. *)
Definition ssdScores : Tensor :=
  {| data := [frac 5 100; frac 9 10; frac 1 10; frac 4 10; frac 1 10; frac 2 10];
     shape := [1; 2; 3] |}.

Definition ssdBoxes : Tensor :=
  {| data := [frac 1 10; frac 1 10; frac 5 10; frac 5 10;
              frac 12 100; frac 12 100; frac 52 100; frac 52 100];
     shape := [1; 2; 1; 4] |}.

Definition ssdSample : list Tensor := [ssdScores; ssdBoxes].

Definition half : Qc := Q2Qc (1 # 2).

(** The object emitted for [yolov5Sample] whatever the image: the box scaled
    to 640 x 480 and the label at class index 1 plus 1. *)
Definition yolov5SampleObject : DetectedObject :=
  {| bbox := (Js.of_Z 192, Js.of_Z 144, Js.of_Z 256, Js.of_Z 192);
     class := "bicycle";
     score := frac 9 10 |}.

(** The object emitted for [ssdSample] on a 640 x 480 image. *)
Definition ssdSampleObject : DetectedObject :=
  {| bbox := (Js.of_Z 64, Js.of_Z 48, Js.of_Z 256, Js.of_Z 192);
     class := "bicycle";
     score := frac 9 10 |}.

(** The packed buffer with the five leading fields of every row taken
    away: the class fields of rows 0 to [numBoxes - 1], row after row. *)
Definition classFieldsOnly (scores : Js.Float32Array) (numBoxes numClasses : Z)
    : Js.Float32Array :=
  mjoin (rowClassFields scores numClasses <$> seqZ 0 numBoxes).



(** A packed answer that declares one row of width seven and holds no
    data, and a dense answer whose box tensor holds no data. *)
Definition emptyRow : Tensor := {| data := []; shape := [1; 1; 7] |}.

Definition noBoxes : Tensor := {| data := []; shape := [1; 2; 1; 4] |}.

(** ** Where the model is loaded from *)

Module Load.

Definition BASE_PATH : string :=
  "https://storage.googleapis.com/tfjs-models/savedmodel/".

Record ModelConfig : Type := {
  base : option string;
  modelUrl : option string;
  inputSize : option Z
}.

(** [a || b] on an optional string: an absent and an empty string are both
    falsy. *)
Definition or_else (a : option string) (b : string) : string :=
  match a with
  | Some s => if decide (s = "") then b else s
  | None => b
  end.

Definition getPrefix (base : string) : string :=
  if decide (base = "lite_mobilenet_v2") then "ssd" +:+ base else "ssd_" +:+ base.

(** The [modelPath] set by the constructor of [ObjectDetection]. *)
Definition modelPath (base : string) (modelUrl : option string) : string :=
  or_else modelUrl (BASE_PATH +:+ getPrefix base +:+ "/model.json").

(** The [modelPath] of the object built by [load]: the base defaults to
    'lite_mobilenet_v2' and is not checked against the known names. *)
Definition load_modelPath (config : ModelConfig) : string :=
  let base := or_else (base config) "lite_mobilenet_v2" in
  let modelUrl := modelUrl config in
  modelPath base modelUrl.

End Load.

(** * Proofs *)

(** ** Loop lemmas *)

Section loops.
Context {S : Type}.
Implicit Types (body : Z → S → S) (s : S).

Lemma for_from_ext n i body body' s :
  (∀ k t, i ≤ k < i + Z.of_nat n → body k t = body' k t) →
  Js.for_from n i body s = Js.for_from n i body' s.
Proof.
  revert i s. induction n as [|n IH]; intros i s Hb; simpl; [done|].
  rewrite Hb by lia. apply IH. intros k t Hk. apply Hb. lia.
Qed.

Lemma for_from_inv (P : Z → S → Prop) n i body s :
  P i s →
  (∀ k t, i ≤ k < i + Z.of_nat n → P k t → P (k + 1) (body k t)) →
  P (i + Z.of_nat n) (Js.for_from n i body s).
Proof.
  revert i s. induction n as [|n IH]; intros i s H0 Hstep; simpl.
  - by rewrite Z.add_0_r.
  - replace (i + Z.of_nat (Datatypes.S n)) with ((i + 1) + Z.of_nat n) by lia.
    apply IH.
    + apply Hstep; [lia | done].
    + intros k t Hk. apply Hstep. lia.
Qed.
End loops.

(** A loop that pushes one element per round builds the image of the range. *)
Lemma for_from_push {A} (f : Z → A) n i (acc : list A) :
  Js.for_from n i (λ k a, a ++ [f k]) acc = acc ++ (f <$> seqZ i (Z.of_nat n)).
Proof.
  revert i acc. induction n as [|n IH]; intros i acc; simpl.
  - by rewrite app_nil_r.
  - rewrite IH. replace (Z.of_nat (Datatypes.S n)) with (Z.succ (Z.of_nat n)) by lia.
    rewrite (seqZ_cons i) by lia. rewrite Z.pred_succ. simpl.
    by rewrite <- app_assoc.
Qed.

Lemma for_from_push2 {A B} (f : Z → A * B) n i (a : list A) (b : list B) :
  Js.for_from n i (λ k '(a, b), let '(x, y) := f k in (a ++ [x], b ++ [y])) (a, b)
  = (a ++ (fst ∘ f <$> seqZ i (Z.of_nat n)), b ++ (snd ∘ f <$> seqZ i (Z.of_nat n))).
Proof.
  revert i a b. induction n as [|n IH]; intros i a b; simpl.
  - by rewrite !app_nil_r.
  - destruct (f i) as [x y] eqn:E. rewrite IH.
    replace (Z.of_nat (Datatypes.S n)) with (Z.succ (Z.of_nat n)) by lia.
    rewrite (seqZ_cons i) by lia. rewrite Z.pred_succ. simpl. rewrite E. simpl.
    by rewrite <- !app_assoc.
Qed.

Lemma for_lt_range (bound : Z) : seqZ 0 (Z.of_nat (Z.to_nat bound)) = seqZ 0 bound.
Proof.
  destruct (decide (0 ≤ bound)) as [H|H].
  - by rewrite Z2Nat.id.
  - replace (Z.to_nat bound) with 0%nat by lia. simpl.
    symmetry. apply seqZ_nil. lia.
Qed.

Lemma calculateMaxScores_unfold scores numBoxes numClasses :
  calculateMaxScores scores numBoxes numClasses
  = (fst ∘ denseScan scores numClasses <$> seqZ 0 numBoxes,
     snd ∘ denseScan scores numClasses <$> seqZ 0 numBoxes).
Proof.
  unfold calculateMaxScores, Js.for_lt at 1.
  rewrite (for_from_push2 (denseScan scores numClasses)). simpl.
  by rewrite for_lt_range.
Qed.

Lemma calculateMaxScoresYolov5_unfold scores numBoxes numClasses :
  calculateMaxScoresYolov5 scores numBoxes numClasses
  = (snd ∘ yolov5Scan scores numClasses <$> seqZ 0 numBoxes).
Proof.
  unfold calculateMaxScoresYolov5, Js.for_lt at 1.
  rewrite (for_from_push2 (yolov5Scan scores numClasses)). simpl.
  by rewrite for_lt_range.
Qed.

(** The confidence of anchor [i] is the fifth field of its row. *)
Lemma getConfidenceYoloV5_unfold scores numBoxes numClasses :
  getConfidenceYoloV5 scores numBoxes numClasses
  = ((λ i, scores.[i * (numClasses + 5) + 4]) <$> seqZ 0 numBoxes).
Proof.
  unfold getConfidenceYoloV5, Js.for_lt.
  rewrite (for_from_push (λ i, scores.[i * (numClasses + 5) + 4])). simpl.
  by rewrite for_lt_range.
Qed.

(** ** The running-maximum scan *)

Lemma gt_true (a b : Js.num) :
  Js.gt a b = true ↔ ∃ x y, a = Some x ∧ b = Some y ∧ (y < x)%Qc.
Proof.
  unfold Js.gt. destruct a as [x|], b as [y|];
    [|split; [done | by intros (?&?&?&?&?)]..].
  split.
  - intros H. exists x, y. split; [done|]. split; [done|].
    apply (Qcgt_alt x y). by destruct (x ?= y)%Qc.
  - intros (x' & y' & ? & ? & Hlt); simplify_eq.
    apply (Qcgt_alt x' y') in Hlt. by rewrite Hlt.
Qed.

Lemma gt_false_le (x y : Qc) : Js.gt (Some x) (Some y) = false → (x ≤ y)%Qc.
Proof.
  intros H. apply Qcnot_lt_le. intros Hlt.
  assert (Js.gt (Some x) (Some y) = true) by (apply gt_true; eauto).
  congruence.
Qed.

Lemma scan_step_scanned f k st :
  0 ≤ k → scanned f k st → scanned f (k + 1) (scan_step (f k) k st).
Proof.
  intros Hk (m & Hmax & Hub & Hidx). destruct st as [max index]; simpl in *.
  subst max. unfold scan_step. destruct (Js.gt (f k) (Some m)) eqn:E.
  - apply gt_true in E as (x & y & Hx & Hy & Hlt). simplify_eq.
    exists x; simpl. split; [done|]. split.
    + intros j v Hj Hv. destruct (decide (j = k)) as [->|].
      * rewrite Hx in Hv. simplify_eq. apply Qcle_refl.
      * apply Qclt_le_weak, Qcle_lt_trans with y; [|done]. apply (Hub j); [lia|done].
    + right. split; [lia|]. split; [done|]. split.
      * destruct Hidx as [[_ ->]|(_&_&H&_)]; [done|]. by apply Qclt_trans with y.
      * intros j v Hj Hv. apply Qcle_lt_trans with y; [|done]. apply (Hub j); [lia|done].
  - exists m; simpl. split; [done|]. split.
    + intros j v Hj Hv. destruct (decide (j = k)) as [->|].
      * rewrite Hv in E. by apply gt_false_le.
      * apply (Hub j); [lia|done].
    + destruct Hidx as [?|(?&?&?&?)]; [by left|right]. split; [lia|done].
Qed.

Lemma scan_scanned f n :
  scanned f (Z.of_nat n)
    (Js.for_from n 0 (λ j st, scan_step (f j) j st) (Some Js.MIN_VALUE, -1)).
Proof.
  apply (for_from_inv (scanned f) n 0).
  - exists Js.MIN_VALUE; simpl. split; [done|]. split; [intros; lia | by left].
  - intros k t Hk. apply scan_step_scanned. lia.
Qed.

Lemma scan_index_range f n st :
  0 ≤ n → scanned f n st → st.2 = -1 ∨ 0 ≤ st.2 ≤ n - 1.
Proof. intros Hn (m & _ & _ & [[? _]|[? _]]); [by left | right; lia]. Qed.

Lemma denseScan_scanned scores numClasses i :
  0 ≤ numClasses →
  scanned (λ j, scores.[i * numClasses + j]) numClasses (denseScan scores numClasses i).
Proof.
  intros H. unfold denseScan, Js.for_lt.
  rewrite <- (Z2Nat.id numClasses) at 1 by done.
  apply (scan_scanned (λ j, scores.[i * numClasses + j])).
Qed.

Lemma yolov5Scan_scanned scores numClasses i :
  0 ≤ numClasses →
  scanned (λ j, scores.[yolov5ScoreIndex i numClasses j]) numClasses
    (yolov5Scan scores numClasses i).
Proof.
  intros H. unfold yolov5Scan, Js.for_lt.
  rewrite <- (Z2Nat.id numClasses) at 1 by done.
  apply (scan_scanned (λ j, scores.[yolov5ScoreIndex i numClasses j])).
Qed.

Lemma traverse_Returns {A B} (f : A → outcome B) l ys :
  traverse f l = Returns ys ↔ Forall2 (λ x y, f x = Returns y) l ys.
Proof.
  revert ys. induction l as [|x l IH]; intros ys; simpl.
  - split; [intros [= <-]; constructor | by inversion 1].
  - destruct (f x) as [y|e] eqn:Ex; simpl.
    + destruct (traverse f l) as [zs|e] eqn:El; simpl.
      * split.
        -- intros [= <-]. constructor; [done|]. by apply IH.
        -- inversion 1 as [|? y' ? zs' Hy Hzs]; subst.
           apply IH in Hzs. congruence.
      * split; [done|]. inversion 1 as [|? y' ? zs' Hy Hzs]; subst.
        apply IH in Hzs. congruence.
    + split; [done|]. inversion 1; congruence.
Qed.

Lemma traverse_Throws {A B} (f : A → outcome B) l x e :
  x ∈ l → f x = Throws e → ∃ e', traverse f l = Throws e'.
Proof.
  intros Hin Hx. induction l as [|z l IH]; [by apply elem_of_nil in Hin|].
  simpl. apply elem_of_cons in Hin as [<-|Hin].
  - rewrite Hx. simpl. eauto.
  - destruct (f z); simpl; [|eauto].
    destruct (IH Hin) as [e' ->]. simpl. eauto.
Qed.

Lemma traverse_total {A B} (f : A → outcome B) l :
  (∀ x, x ∈ l → ∃ y, f x = Returns y) → ∃ ys, traverse f l = Returns ys.
Proof.
  induction l as [|x l IH]; intros H; simpl; [eauto|].
  destruct (H x) as [y ->]; [left|]. simpl.
  destruct IH as [ys ->]; [intros; apply H; by right|]. simpl. eauto.
Qed.

Lemma buildDetectedObjects_loop {B} (f : Z → outcome B) (done todo : list Z) acc :
  Js.for_from (length todo) (Z.of_nat (length done))
    (λ i acc,
      let* objects := acc in
      match Js.at_ (done ++ todo) i with
      | Some k => let* object := f k in Returns (objects ++ [object])
      | None => Throws TypeError_undefined
      end) (Returns acc)
  = let* ys := traverse f todo in Returns (acc ++ ys).
Proof.
  revert done acc. induction todo as [|k todo IH]; intros done acc; simpl.
  - by rewrite app_nil_r.
  - unfold Js.at_ at 2.
    replace (Z.of_nat (length done) <? 0) with false by (symmetry; apply Z.ltb_ge; lia).
    rewrite Nat2Z.id, list_lookup_middle by done.
    destruct (f k) as [y|e] eqn:Ek; simpl.
    + specialize (IH (done ++ [k]) (acc ++ [y])).
      rewrite length_app in IH. simpl in IH.
      replace (Z.of_nat (length done + 1)) with (Z.of_nat (length done) + 1) in IH by lia.
      rewrite <- app_assoc in IH. simpl in IH. rewrite IH.
      destruct (traverse f todo); simpl; [|done]. by rewrite <- app_assoc.
    + clear. generalize (Z.of_nat (length done) + 1). generalize (done ++ k :: todo).
      induction (length todo) as [|n IHn]; intros l z; simpl; [done|]. apply IHn.
Qed.

Lemma buildDetectedObjects_traverse CLASSES width height boxes scores indexes classes :
  buildDetectedObjects CLASSES width height boxes scores indexes classes
  = traverse (detectedObject CLASSES width height boxes scores classes) indexes.
Proof.
  unfold buildDetectedObjects, Js.for_lt. rewrite Nat2Z.id.
  rewrite (buildDetectedObjects_loop _ [] indexes []). simpl.
  by destruct (traverse _ indexes).
Qed.

(** ** The score and class extractors *)

Lemma get_rowClassFields scores numClasses i j :
  0 ≤ j < numClasses →
  (rowClassFields scores numClasses i).[j] = scores.[packedClassSlot i numClasses j].
Proof.
  intros Hj. unfold Js.get at 1, rowClassFields.
  replace (j <? 0) with false by (symmetry; apply Z.ltb_ge; lia).
  rewrite list_lookup_fmap, (lookup_seqZ_lt 0 numClasses (Z.to_nat j)) by lia.
  simpl. f_equal. f_equal. lia.
Qed.

Lemma yolov5ScoreIndex_packedClassSlot i numClasses j :
  yolov5ScoreIndex i numClasses j = packedClassSlot i numClasses j.
Proof. unfold yolov5ScoreIndex, packedClassSlot. ring. Qed.

(** C1.  The index expression of the packed extractor,
    [i*numClasses + (i+1)*5 + j], is the position of class field [j] of row
    [i] under the documented stride, [i*(numClasses+5) + 5 + j]; hence the
    packed extractor computes, anchor by anchor, the running maximum over
    exactly the [numClasses] class fields of the anchor's row. *)
Theorem yolov5_index_is_row_stride :
  (∀ i numClasses j : Z,
     yolov5ScoreIndex i numClasses j = i * (numClasses + 5) + 5 + j) ∧
  (∀ scores numBoxes numClasses,
     calculateMaxScoresYolov5 scores numBoxes numClasses
     = maxClassOfPackedRows scores numBoxes numClasses).
Proof.
  split; [intros; apply yolov5ScoreIndex_packedClassSlot|].
  intros scores numBoxes numClasses.
  rewrite calculateMaxScoresYolov5_unfold. unfold maxClassOfPackedRows.
  apply list_fmap_ext. intros _ i _. simpl. f_equal.
  unfold yolov5Scan, scanRow, Js.for_lt, rowClassFields at 1.
  rewrite length_fmap, length_seqZ, Nat2Z.id.
  apply for_from_ext. intros k t Hk. f_equal.
  rewrite get_rowClassFields by lia.
  by rewrite yolov5ScoreIndex_packedClassSlot.
Qed.

(** C2, at a row without a positive score.  The scan starts from
    [Number.MIN_VALUE], the smallest positive number: on the row [-1, -2]
    and on the row [0, 0] no entry replaces it, and the class index stays
    [-1] although the maximum of either row sits at position 0. *)
Theorem dense_scan_keeps_sentinel_on_nonpositive_row :
  calculateMaxScores [Js.of_Z (-1); Js.of_Z (-2)] 1 2 = ([Some Js.MIN_VALUE], [-1]) ∧
  calculateMaxScores [Js.of_Z 0; Js.of_Z 0] 1 2 = ([Some Js.MIN_VALUE], [-1]) ∧
  (0 < Js.MIN_VALUE)%Qc.
Proof. split; [evaluates|]. split; [evaluates|]. by vm_compute. Qed.


(** C10.  With non-negative [numBoxes] and [numClasses], the dense extractor
    returns two arrays of length [numBoxes] and the packed extractor one
    array of length [numBoxes]; every class index in them is [-1] or lies
    between [0] and [numClasses - 1]. *)
Theorem extractors_length_and_index_range scores numBoxes numClasses :
  0 ≤ numBoxes → 0 ≤ numClasses →
  Z.of_nat (length (calculateMaxScores scores numBoxes numClasses).1) = numBoxes ∧
  Z.of_nat (length (calculateMaxScores scores numBoxes numClasses).2) = numBoxes ∧
  Z.of_nat (length (calculateMaxScoresYolov5 scores numBoxes numClasses)) = numBoxes ∧
  Forall (λ c, c = -1 ∨ 0 ≤ c ≤ numClasses - 1)
    (calculateMaxScores scores numBoxes numClasses).2 ∧
  Forall (λ c, c = -1 ∨ 0 ≤ c ≤ numClasses - 1)
    (calculateMaxScoresYolov5 scores numBoxes numClasses).
Proof.
  intros Hb Hc.
  rewrite calculateMaxScores_unfold, calculateMaxScoresYolov5_unfold. simpl.
  rewrite !length_fmap, length_seqZ.
  repeat split; try lia.
  - apply Forall_fmap, Forall_forall. intros i _. simpl.
    eapply scan_index_range; [exact Hc|].
    by apply denseScan_scanned.
  - apply Forall_fmap, Forall_forall. intros i _. simpl.
    eapply scan_index_range; [exact Hc|].
    by apply yolov5Scan_scanned.
Qed.

Lemma extractors_length_and_index_range_witness :
  0 ≤ 1 ∧ 0 ≤ 2 ∧
  Z.of_nat (length (calculateMaxScores [Js.of_Z 1; frac 1 2] 1 2).1) = 1 ∧
  Z.of_nat (length (calculateMaxScores [Js.of_Z 1; frac 1 2] 1 2).2) = 1 ∧
  Z.of_nat (length (calculateMaxScoresYolov5 [Js.of_Z 1; frac 1 2] 1 2)) = 1 ∧
  Forall (λ c, c = -1 ∨ 0 ≤ c ≤ 2 - 1) (calculateMaxScores [Js.of_Z 1; frac 1 2] 1 2).2 ∧
  Forall (λ c, c = -1 ∨ 0 ≤ c ≤ 2 - 1) (calculateMaxScoresYolov5 [Js.of_Z 1; frac 1 2] 1 2).
Proof.
  assert (Hb : 0 ≤ 1) by lia. assert (Hc : 0 ≤ 2) by lia.
  split; [exact Hb|]. split; [exact Hc|].
  exact (extractors_length_and_index_range [Js.of_Z 1; frac 1 2] 1 2 Hb Hc).
Defined.

Section infer_facts.
Variable CLASSES : gmap Z ObjectDetectionClass.
Variable suppress :
  Js.Float32Array → Z * Z → list Js.num → Z → Qc → Qc → outcome (list Z).

Lemma infer_yolov5s img result t n w maxNumBoxes nmsThresh minScore inputSize :
  yolov5Output result t n w →
  infer CLASSES suppress "yolov5s" img result maxNumBoxes nmsThresh minScore inputSize
  = let* indexes :=
      suppress (getBoxesYoloV5 (data t) n (w - 5) inputSize) (n, 4)
        (getConfidenceYoloV5 (data t) n (w - 5)) maxNumBoxes nmsThresh minScore in
    buildDetectedObjects CLASSES (Js.of_Z 640) (Js.of_Z 480)
      (getBoxesYoloV5 (data t) n (w - 5) inputSize)
      (getConfidenceYoloV5 (data t) n (w - 5)) indexes
      (calculateMaxScoresYolov5 (data t) n (w - 5)).
Proof.
  intros (Ht & Hn & Hw). unfold infer. rewrite decide_True by done.
  unfold infer_yolov5. rewrite Ht. simpl. rewrite Hn. simpl. by rewrite Hw.
Qed.

Lemma infer_ssd_base base img result t0 t1 n c r cols
    maxNumBoxes nmsThresh minScore inputSize :
  base ≠ "yolov5s" →
  ssdOutput result t0 t1 n c r cols →
  infer CLASSES suppress base img result maxNumBoxes nmsThresh minScore inputSize
  = let* indexes :=
      suppress (data t1) (r, cols) (calculateMaxScores (data t0) n c).1
        maxNumBoxes nmsThresh minScore in
    buildDetectedObjects CLASSES (Js.of_Z (imgWidth img)) (Js.of_Z (imgHeight img))
      (data t1) (calculateMaxScores (data t0) n c).1 indexes
      (calculateMaxScores (data t0) n c).2.
Proof.
  intros Hb (H0 & H1 & Hn & Hc & Hr & Hcols). unfold infer.
  rewrite decide_False by done.
  unfold infer_ssd. rewrite H0. simpl. rewrite H1. simpl.
  rewrite Hn. simpl. rewrite Hc. simpl.
  destruct (calculateMaxScores (data t0) n c) as [maxScores classes]. simpl.
  rewrite Hr. simpl. by rewrite Hcols.
Qed.
End infer_facts.

(** ** The result assembler *)

(** C6.  When the class lookup succeeds for every kept index, the assembler
    returns one object per kept index, in the order of the kept indices;
    the object for [k] has [bbox = (minX, minY, maxX - minX, maxY - minY)]
    with [minY = y1*height], [minX = x1*width], [maxY = y2*height],
    [maxX = x2*width] on the box [(y1, x1, y2, x2)] stored at [k*4], and
    [score = scores[k]]. *)
Theorem assembler_emits_denormalized_boxes
    CLASSES width height boxes scores indexes classes :
  (∀ k, k ∈ indexes → is_Some (classEntry CLASSES classes k)) →
  ∃ objects,
    buildDetectedObjects CLASSES width height boxes scores indexes classes
    = Returns objects ∧
    Forall2 (λ k object,
      let minY := Js.mul boxes.[k * 4] height in
      let minX := Js.mul boxes.[k * 4 + 1] width in
      let maxY := Js.mul boxes.[k * 4 + 2] height in
      let maxX := Js.mul boxes.[k * 4 + 3] width in
      bbox object = (minX, minY, Js.sub maxX minX, Js.sub maxY minY) ∧
      score object = scores.[k]) indexes objects.
Proof.
  intros Hok. rewrite buildDetectedObjects_traverse.
  destruct (traverse_total (detectedObject CLASSES width height boxes scores classes)
              indexes) as [objects Hobjects].
  { intros k Hk. destruct (Hok k Hk) as [entry Hentry].
    unfold detectedObject. unfold classEntry in Hentry. rewrite Hentry. eauto. }
  exists objects. split; [done|].
  apply traverse_Returns in Hobjects.
  eapply Forall2_impl; [exact Hobjects|].
  intros k object. simpl. unfold detectedObject.
  rewrite Z.add_0_r.
  destruct (Js.at_ classes k ≫= _); [|done]. by intros [= <-].
Qed.

(** C8.  With no kept index the assembler returns the empty list, and so
    does either branch of [infer] when the suppression stage keeps
    nothing. *)
Theorem empty_kept_gives_empty_result CLASSES suppress :
  (∀ width height boxes scores classes,
     buildDetectedObjects CLASSES width height boxes scores [] classes = Returns []) ∧
  (∀ img result t n w maxNumBoxes nmsThresh minScore inputSize,
     yolov5Output result t n w →
     suppress (getBoxesYoloV5 (data t) n (w - 5) inputSize) (n, 4)
       (getConfidenceYoloV5 (data t) n (w - 5)) maxNumBoxes nmsThresh minScore
     = Returns [] →
     detect CLASSES suppress "yolov5s" img result maxNumBoxes nmsThresh minScore inputSize
     = Returns []) ∧
  (∀ base img result t0 t1 n c r cols maxNumBoxes nmsThresh minScore inputSize,
     base ≠ "yolov5s" →
     ssdOutput result t0 t1 n c r cols →
     suppress (data t1) (r, cols) (calculateMaxScores (data t0) n c).1
       maxNumBoxes nmsThresh minScore
     = Returns [] →
     detect CLASSES suppress base img result maxNumBoxes nmsThresh minScore inputSize
     = Returns []).
Proof.
  split; [done|]. split.
  - intros * Hout Hkept. unfold detect.
    rewrite (infer_yolov5s _ _ _ _ t n w) by done. by rewrite Hkept.
  - intros * Hbase Hout Hkept. unfold detect.
    rewrite (infer_ssd_base _ _ _ _ _ t0 t1 n c r cols) by done. by rewrite Hkept.
Qed.


Lemma yolov5Sample_output : yolov5Output yolov5Sample yolov5Row 1 7.
Proof. by repeat split. Defined.

Lemma ssdSample_output : ssdOutput ssdSample ssdScores ssdBoxes 2 3 2 4.
Proof. by repeat split. Defined.

Lemma assembler_emits_denormalized_boxes_witness :
  (∀ k, k ∈ [0] → is_Some (classEntry sampleClasses [1] k)) ∧
  ∃ objects,
    buildDetectedObjects sampleClasses (Js.of_Z 640) (Js.of_Z 480)
      (data ssdBoxes) [frac 9 10] [0] [1] = Returns objects ∧
    Forall2 (λ k object,
      let minY := Js.mul (data ssdBoxes).[k * 4] (Js.of_Z 480) in
      let minX := Js.mul (data ssdBoxes).[k * 4 + 1] (Js.of_Z 640) in
      let maxY := Js.mul (data ssdBoxes).[k * 4 + 2] (Js.of_Z 480) in
      let maxX := Js.mul (data ssdBoxes).[k * 4 + 3] (Js.of_Z 640) in
      bbox object = (minX, minY, Js.sub maxX minX, Js.sub maxY minY) ∧
      score object = [frac 9 10].[k]) [0] objects.
Proof.
  assert (H : ∀ k, k ∈ [0] → is_Some (classEntry sampleClasses [1] k)).
  { intros k Hk. apply list_elem_of_singleton in Hk. subst k. vm_compute. eauto. }
  split; [exact H|].
  exact (assembler_emits_denormalized_boxes sampleClasses (Js.of_Z 640) (Js.of_Z 480)
           (data ssdBoxes) [frac 9 10] [0] [1] H).
Defined.

Lemma empty_kept_gives_empty_result_witness :
  buildDetectedObjects sampleClasses (Js.of_Z 640) (Js.of_Z 480) [] [] [] [] = Returns [] ∧
  detect sampleClasses Suppressor.suppress "yolov5s"
    {| imgWidth := 640; imgHeight := 480 |} yolov5Sample 20 half (Q2Qc (95 # 100))
    (Js.of_Z 640) = Returns [] ∧
  detect sampleClasses Suppressor.suppress "lite_mobilenet_v2"
    {| imgWidth := 640; imgHeight := 480 |} ssdSample 20 half (Q2Qc (95 # 100))
    (Js.of_Z 640) = Returns [].
Proof.
  destruct (empty_kept_gives_empty_result sampleClasses Suppressor.suppress)
    as (Hnone & Hpacked & Hdense).
  split; [apply Hnone|]. split.
  - apply (Hpacked _ _ yolov5Row 1 7); [exact yolov5Sample_output | by vm_compute].
  - apply (Hdense _ _ _ ssdScores ssdBoxes 2 3 2 4);
      [done | exact ssdSample_output | by vm_compute].
Defined.


(** ** The class offset and the image dimensions *)

Lemma buildDetectedObjects_looksUpAt
    CLASSES width height boxes scores indexes classes objects :
  buildDetectedObjects CLASSES width height boxes scores indexes classes
  = Returns objects →
  looksUpAt 1 CLASSES classes indexes objects.
Proof.
  rewrite buildDetectedObjects_traverse, traverse_Returns.
  intros H. eapply Forall2_impl; [exact H|].
  intros k object. simpl. unfold detectedObject.
  destruct (Js.at_ classes k) as [c|]; simpl; [|done].
  destruct (CLASSES !! (c + 1)) as [entry|] eqn:E; [|done].
  intros [= <-]. by exists c, entry.
Qed.

(** C3, as amended.  The assembler applies the one offset 1 whatever the
    layout: for every kept index, the dense branch and the packed branch
    alike emit the display name stored at [classIndex + 1]. *)
Theorem class_offset_is_one_in_both_layouts :
  denseLooksUpAt 1 ∧ packedLooksUpAt 1.
Proof.
  split.
  - intros CLASSES suppress base img result t0 t1 n c r cols
      maxNumBoxes nmsThresh minScore inputSize indexes objects Hb Hout Hkept.
    rewrite (infer_ssd_base _ _ _ _ _ t0 t1 n c r cols) by done.
    rewrite Hkept. simpl. apply buildDetectedObjects_looksUpAt.
  - intros CLASSES suppress img result t n w
      maxNumBoxes nmsThresh minScore inputSize indexes objects Hout Hkept.
    rewrite (infer_yolov5s _ _ _ _ t n w) by done.
    rewrite Hkept. simpl. apply buildDetectedObjects_looksUpAt.
Qed.

Lemma yolov5Sample_kept :
  Suppressor.suppress (getBoxesYoloV5 (data yolov5Row) 1 (7 - 5) (Js.of_Z 640)) (1, 4)
    (getConfidenceYoloV5 (data yolov5Row) 1 (7 - 5)) 20 half half = Returns [0].
Proof. by vm_compute. Defined.

Lemma yolov5Sample_detected img :
  infer sampleClasses Suppressor.suppress "yolov5s" img yolov5Sample 20 half half
    (Js.of_Z 640) = Returns [yolov5SampleObject].
Proof. destruct img. evaluates. Defined.

Lemma ssdSample_kept :
  Suppressor.suppress (data ssdBoxes) (2, 4) (calculateMaxScores (data ssdScores) 2 3).1
    20 half half = Returns [0].
Proof. by vm_compute. Defined.

Lemma ssdSample_detected :
  infer sampleClasses Suppressor.suppress "lite_mobilenet_v2"
    {| imgWidth := 640; imgHeight := 480 |} ssdSample 20 half half (Js.of_Z 640)
  = Returns [ssdSampleObject].
Proof. evaluates. Defined.

Lemma class_offset_is_one_in_both_layouts_witness :
  looksUpAt 1 sampleClasses (calculateMaxScores (data ssdScores) 2 3).2 [0]
    [ssdSampleObject] ∧
  looksUpAt 1 sampleClasses (calculateMaxScoresYolov5 (data yolov5Row) 1 (7 - 5)) [0]
    [yolov5SampleObject].
Proof.
  destruct class_offset_is_one_in_both_layouts as [Hdense Hpacked]. split.
  - apply (Hdense sampleClasses Suppressor.suppress "lite_mobilenet_v2"%string
             {| imgWidth := 640; imgHeight := 480 |} ssdSample ssdScores ssdBoxes
             2 3 2 4 20 half half (Js.of_Z 640)).
    + done.
    + exact ssdSample_output.
    + exact ssdSample_kept.
    + exact ssdSample_detected.
  - apply (Hpacked sampleClasses Suppressor.suppress
             {| imgWidth := 640; imgHeight := 480 |} yolov5Sample yolov5Row
             1 7 20 half half (Js.of_Z 640)).
    + exact yolov5Sample_output.
    + exact yolov5Sample_kept.
    + apply yolov5Sample_detected.
Defined.

(** C3, as stated, fails on the packed branch: on [yolov5Sample] the class
    index is 1, the table holds "person" at 1 + 0, and the object emitted is
    labelled "bicycle", the entry at 1 + 1. *)
Lemma packed_offset_is_not_zero : ¬ (denseLooksUpAt 1 ∧ packedLooksUpAt 0).
Proof.
  intros [_ Hpacked].
  specialize (Hpacked sampleClasses Suppressor.suppress
                {| imgWidth := 640; imgHeight := 480 |} yolov5Sample yolov5Row
                1 7 20 half half (Js.of_Z 640) [0] [yolov5SampleObject]
                yolov5Sample_output yolov5Sample_kept (yolov5Sample_detected _)).
  apply Forall2_cons_1 in Hpacked as [(c & entry & Hc & Hentry & Hclass) _].
  vm_compute in Hc. injection Hc as <-.
  vm_compute in Hentry. injection Hentry as <-.
  vm_compute in Hclass. discriminate Hclass.
Qed.

(** C4, on an image that is not 640 x 480.  The packed branch never looks
    at the image: every image gives the same answer, and for a 1280 x 720
    image the box of [yolov5Sample], (0.3, 0.3, 0.7, 0.7) once decoded, comes
    out as (192, 144, 256, 192), scaled by the constants 640 and 480, where
    the image's own dimensions give (384, 216, 512, 288). *)
Theorem yolov5_bbox_scaled_by_fixed_640_480 :
  (∀ CLASSES suppress img img' result maxNumBoxes nmsThresh minScore inputSize,
     detect CLASSES suppress "yolov5s" img result maxNumBoxes nmsThresh minScore inputSize
     = detect CLASSES suppress "yolov5s" img' result maxNumBoxes nmsThresh minScore
         inputSize) ∧
  detect sampleClasses Suppressor.suppress "yolov5s"
    {| imgWidth := 1280; imgHeight := 720 |} yolov5Sample 20 half half (Js.of_Z 640)
  = Returns [ {| bbox := (Js.of_Z 192, Js.of_Z 144, Js.of_Z 256, Js.of_Z 192);
                 class := "bicycle"; score := frac 9 10 |} ] ∧
  buildDetectedObjects sampleClasses (Js.of_Z 1280) (Js.of_Z 720)
    (getBoxesYoloV5 (data yolov5Row) 1 2 (Js.of_Z 640))
    (getConfidenceYoloV5 (data yolov5Row) 1 2) [0]
    (calculateMaxScoresYolov5 (data yolov5Row) 1 2)
  = Returns [ {| bbox := (Js.of_Z 384, Js.of_Z 216, Js.of_Z 512, Js.of_Z 288);
                 class := "bicycle"; score := frac 9 10 |} ].
Proof.
  split; [done|]. split; evaluates.
Qed.

(** ** The box decoder *)

Lemma for_from_extend {A} (g : Z → list A) n i (acc : list A) :
  Js.for_from n i (λ k a, a ++ g k) acc = acc ++ mjoin (g <$> seqZ i (Z.of_nat n)).
Proof.
  revert i acc. induction n as [|n IH]; intros i acc; simpl.
  - by rewrite app_nil_r.
  - rewrite IH. replace (Z.of_nat (Datatypes.S n)) with (Z.succ (Z.of_nat n)) by lia.
    rewrite (seqZ_cons i) by lia. rewrite Z.pred_succ. simpl.
    by rewrite <- app_assoc.
Qed.






(** ** The suppressor's contract *)

Section suppressor_facts.
Import Suppressor.
Local Open Scope Qc_scope.

Lemma insertByScore_elem c l x : x ∈ insertByScore c l ↔ x = c ∨ x ∈ l.
Proof.
  induction l as [|d l IH]; simpl.
  - rewrite list_elem_of_singleton, elem_of_nil. tauto.
  - case_decide; rewrite !elem_of_cons; [tauto|]. rewrite IH. tauto.
Qed.

Lemma insertByScore_sorted c l :
  StronglySorted descending l → StronglySorted descending (insertByScore c l).
Proof.
  induction 1 as [|d l Hl IH Hd]; simpl; [repeat constructor|].
  case_decide as Hlt.
  - constructor; [by constructor|]. constructor.
    + by apply Qclt_le_weak.
    + eapply Forall_impl; [exact Hd|]. intros x Hx. unfold descending in *.
      apply Qcle_trans with d.2; [done|]. by apply Qclt_le_weak.
  - constructor; [done|]. apply Forall_forall. intros x Hx.
    apply insertByScore_elem in Hx as [->|Hx].
    + by apply Qcnot_lt_le.
    + rewrite Forall_forall in Hd. by apply Hd.
Qed.

Lemma sortByScore_elem l x : x ∈ sortByScore l ↔ x ∈ l.
Proof.
  induction l as [|c l IH]; simpl; [done|].
  rewrite insertByScore_elem, elem_of_cons, IH. tauto.
Qed.

Lemma sortByScore_sorted l : StronglySorted descending (sortByScore l).
Proof.
  induction l as [|c l IH]; simpl; [constructor|]. by apply insertByScore_sorted.
Qed.

Lemma filter_sorted (P : Candidate → Prop) `{∀ c, Decision (P c)} l :
  StronglySorted descending l → StronglySorted descending (filter P l).
Proof.
  induction 1 as [|d l Hl IH Hd]; [constructor|].
  rewrite filter_cons. case_decide; [|done].
  constructor; [done|]. apply Forall_forall. intros x Hx.
  apply list_elem_of_filter in Hx as [_ Hx].
  rewrite Forall_forall in Hd. by apply Hd.
Qed.

Lemma select_length boxes thr room cands :
  (length (select boxes thr room cands) ≤ room)%nat.
Proof.
  revert cands. induction room as [|room IH]; intros cands; simpl; [lia|].
  destruct cands as [|c rest]; simpl; [lia|].
  specialize (IH (filter (λ d, ¬ thr < iou (boxAt boxes c.1) (boxAt boxes d.1)) rest)).
  lia.
Qed.

Lemma select_elem boxes thr room cands x :
  x ∈ select boxes thr room cands → x ∈ cands.
Proof.
  revert cands. induction room as [|room IH]; intros cands; simpl.
  - by intros ?%elem_of_nil.
  - destruct cands as [|c rest]; [done|].
    rewrite !elem_of_cons. intros [->|Hx]; [by left|right].
    apply IH in Hx. by apply list_elem_of_filter in Hx as [_ Hx].
Qed.

Lemma select_sorted boxes thr room cands :
  StronglySorted descending cands →
  StronglySorted descending (select boxes thr room cands).
Proof.
  revert cands. induction room as [|room IH]; intros cands Hs; simpl; [constructor|].
  destruct cands as [|c rest]; [constructor|].
  apply StronglySorted_cons in Hs as [Hc Hrest]. constructor.
  - apply IH. by apply filter_sorted.
  - apply Forall_forall. intros x Hx. apply select_elem in Hx.
    apply list_elem_of_filter in Hx as [_ Hx].
    rewrite Forall_forall in Hc. by apply Hc.
Qed.

(** C5.  On the suppressor of section 4.4: with a non-negative
    [maxNumBoxes], the kept indices are at most [maxNumBoxes]; each is the
    index of a box whose score is at least [minScore]; and the scores of
    the kept boxes, read in the order of the kept indices, are
    descending. *)
Theorem suppression_contract boxes scores maxNumBoxes nmsThresh minScore :
  (0 ≤ maxNumBoxes)%Z →
  let kept := nonMaxSuppression boxes scores maxNumBoxes nmsThresh minScore in
  (Z.of_nat (length kept) ≤ maxNumBoxes)%Z ∧
  ∃ keptScores,
    Forall2 (λ k s, Js.at_ scores k = Some s) kept keptScores ∧
    Forall (λ s, minScore ≤ s) keptScores ∧
    StronglySorted (λ a b, b ≤ a) keptScores.
Proof.
  intros Hmax. simpl. unfold nonMaxSuppression.
  set (candidates := filter (λ c : Candidate, ¬ c.2 < minScore) (imap pair scores)).
  set (chosen := select boxes nmsThresh (Z.to_nat maxNumBoxes) (sortByScore candidates)).
  assert (Hin : ∀ c, c ∈ chosen → c ∈ candidates).
  { intros c Hc. apply select_elem in Hc. by rewrite sortByScore_elem in Hc. }
  split.
  - rewrite length_fmap. pose proof (select_length boxes nmsThresh
      (Z.to_nat maxNumBoxes) (sortByScore candidates)). fold chosen in H. lia.
  - exists (snd <$> chosen). split; [|split].
    + apply Forall2_fmap, Forall_Forall2_diag, Forall_forall.
      intros c Hc. apply Hin, list_elem_of_filter in Hc as [_ Hc].
      apply elem_of_lookup_imap in Hc as (i & s & -> & Hs). simpl.
      unfold Js.at_.
      replace (Z.of_nat i <? 0)%Z with false by (symmetry; apply Z.ltb_ge; lia).
      by rewrite Nat2Z.id.
    + apply Forall_fmap, Forall_forall. intros c Hc. simpl.
      apply Hin, list_elem_of_filter in Hc as [Hc _]. by apply Qcnot_lt_le.
    + apply (StronglySorted_fmap snd descending); [done|].
      apply select_sorted, sortByScore_sorted.
Qed.
End suppressor_facts.

Lemma suppression_contract_witness :
  0 ≤ 20 ∧
  let kept := Suppressor.nonMaxSuppression
                [Q2Qc (1 # 10); Q2Qc (1 # 10); Q2Qc (5 # 10); Q2Qc (5 # 10);
                 Q2Qc (12 # 100); Q2Qc (12 # 100); Q2Qc (52 # 100); Q2Qc (52 # 100)]
                [Q2Qc (9 # 10); Q2Qc (4 # 10)] 20 half half in
  Z.of_nat (length kept) ≤ 20 ∧
  ∃ keptScores,
    Forall2 (λ k s, Js.at_ [Q2Qc (9 # 10); Q2Qc (4 # 10)] k = Some s) kept keptScores ∧
    Forall (λ s, (half ≤ s)%Qc) keptScores ∧
    StronglySorted (λ a b, (b ≤ a)%Qc) keptScores.
Proof.
  assert (H : 0 ≤ 20) by lia.
  split; [exact H|].
  exact (suppression_contract _ _ 20 half half H).
Defined.

(** ** More on the extractors *)

Lemma at_fmap_seqZ {A} (f : Z → A) n i :
  0 ≤ i < n → Js.at_ (f <$> seqZ 0 n) i = Some (f i).
Proof.
  intros Hi. unfold Js.at_.
  replace (i <? 0) with false by (symmetry; apply Z.ltb_ge; lia).
  rewrite list_lookup_fmap, (lookup_seqZ_lt 0 n) by lia.
  simpl. do 2 f_equal. lia.
Qed.



(** The packed layout yields one confidence per anchor, the fifth field of
    the anchor's row (not a number when the row lies past the buffer). *)
Theorem confidence_is_fifth_field scores numBoxes numClasses :
  0 ≤ numBoxes →
  Z.of_nat (length (getConfidenceYoloV5 scores numBoxes numClasses)) = numBoxes ∧
  ∀ i, 0 ≤ i < numBoxes →
    Js.at_ (getConfidenceYoloV5 scores numBoxes numClasses) i
    = Some scores.[i * (numClasses + 5) + 4].
Proof.
  intros Hn. rewrite getConfidenceYoloV5_unfold. split.
  - rewrite length_fmap, length_seqZ. lia.
  - intros i Hi. by rewrite at_fmap_seqZ.
Qed.

Lemma confidence_is_fifth_field_witness :
  0 ≤ 1 ∧
  Z.of_nat (length (getConfidenceYoloV5 (data yolov5Row) 1 2)) = 1 ∧
  ∀ i, 0 ≤ i < 1 →
    Js.at_ (getConfidenceYoloV5 (data yolov5Row) 1 2) i
    = Some (data yolov5Row).[i * (2 + 5) + 4].
Proof.
  assert (H : 0 ≤ 1) by lia.
  split; [exact H|]. exact (confidence_is_fifth_field (data yolov5Row) 1 2 H).
Defined.

Lemma length_join_chunks {A} (ls : list (list A)) (m : nat) :
  Forall (λ l, length l = m) ls → length (mjoin ls) = (length ls * m)%nat.
Proof.
  induction 1 as [|l ls Hl _ IH]; [done|].
  simpl. rewrite length_app, IH, Hl. lia.
Qed.

(** The decoder always hands four numbers per anchor to the suppression
    stage, whatever the buffer holds. *)
Theorem decoded_boxes_length scores numBoxes numClasses scale_by :
  0 ≤ numBoxes →
  Z.of_nat (length (getBoxesYoloV5 scores numBoxes numClasses scale_by))
  = numBoxes * 4.
Proof.
  intros Hn. unfold getBoxesYoloV5, Js.for_lt.
  rewrite (for_from_extend (decodedCorners scores numClasses scale_by)). simpl.
  rewrite (length_join_chunks _ 4).
  - rewrite length_fmap, length_seqZ. lia.
  - apply Forall_fmap, Forall_forall. by intros.
Qed.

Lemma decoded_boxes_length_witness :
  0 ≤ 1 ∧
  Z.of_nat (length (getBoxesYoloV5 (data yolov5Row) 1 2 (Js.of_Z 640))) = 1 * 4.
Proof.
  assert (H : 0 ≤ 1) by lia.
  split; [exact H|].
  exact (decoded_boxes_length (data yolov5Row) 1 2 (Js.of_Z 640) H).
Defined.








(** With no anchor to go through ([numBoxes] zero or negative) the four
    extraction loops do not run and every array comes back empty. *)
Theorem no_anchor_gives_empty_arrays scores numBoxes numClasses scale_by :
  numBoxes ≤ 0 →
  calculateMaxScores scores numBoxes numClasses = ([], []) ∧
  calculateMaxScoresYolov5 scores numBoxes numClasses = [] ∧
  getConfidenceYoloV5 scores numBoxes numClasses = [] ∧
  getBoxesYoloV5 scores numBoxes numClasses scale_by = [].
Proof.
  intros Hn.
  unfold calculateMaxScores, calculateMaxScoresYolov5, getConfidenceYoloV5,
    getBoxesYoloV5, Js.for_lt.
  by replace (Z.to_nat numBoxes) with 0%nat by lia.
Qed.

Lemma no_anchor_gives_empty_arrays_witness :
  0 ≤ 0 ∧
  calculateMaxScores (data yolov5Row) 0 2 = ([], []) ∧
  calculateMaxScoresYolov5 (data yolov5Row) 0 2 = [] ∧
  getConfidenceYoloV5 (data yolov5Row) 0 2 = [] ∧
  getBoxesYoloV5 (data yolov5Row) 0 2 (Js.of_Z 640) = [].
Proof.
  assert (H : 0 ≤ 0) by lia.
  split; [exact H|].
  exact (no_anchor_gives_empty_arrays (data yolov5Row) 0 2 (Js.of_Z 640) H).
Defined.

(** With no class to go through ([numClasses] zero or negative, as for a
    packed row of width five or less) every anchor is reported with class
    index [-1], and in the dense case with maximum [Number.MIN_VALUE]. *)
Theorem no_class_gives_sentinel scores numBoxes numClasses :
  numClasses ≤ 0 →
  calculateMaxScores scores numBoxes numClasses
  = (replicate (Z.to_nat numBoxes) (Some Js.MIN_VALUE),
     replicate (Z.to_nat numBoxes) (-1)) ∧
  calculateMaxScoresYolov5 scores numBoxes numClasses
  = replicate (Z.to_nat numBoxes) (-1).
Proof.
  intros Hc.
  rewrite calculateMaxScores_unfold, calculateMaxScoresYolov5_unfold.
  assert (Hd : ∀ i, denseScan scores numClasses i = (Some Js.MIN_VALUE, -1)).
  { intros i. unfold denseScan, Js.for_lt.
    by replace (Z.to_nat numClasses) with 0%nat by lia. }
  assert (Hy : ∀ i, yolov5Scan scores numClasses i = (Some Js.MIN_VALUE, -1)).
  { intros i. unfold yolov5Scan, Js.for_lt.
    by replace (Z.to_nat numClasses) with 0%nat by lia. }
  rewrite <- (length_seqZ 0 numBoxes).
  split; [f_equal|]; apply const_fmap; intros _ i _; simpl; by rewrite ?Hd, ?Hy.
Qed.

Lemma no_class_gives_sentinel_witness :
  0 ≤ 0 ∧
  calculateMaxScores (data yolov5Row) 1 0
  = (replicate (Z.to_nat 1) (Some Js.MIN_VALUE), replicate (Z.to_nat 1) (-1)) ∧
  calculateMaxScoresYolov5 (data yolov5Row) 1 0 = replicate (Z.to_nat 1) (-1).
Proof.
  assert (H : 0 ≤ 0) by lia.
  split; [exact H|].
  exact (no_class_gives_sentinel (data yolov5Row) 1 0 H).
Defined.

(** ** More on the assembler and on [infer] *)

Lemma detectedObject_Returns CLASSES width height boxes scores classes k object :
  detectedObject CLASSES width height boxes scores classes k = Returns object →
  ∃ entry, classEntry CLASSES classes k = Some entry ∧
    object = {| bbox := (Js.mul boxes.[k * 4 + 1] width,
                         Js.mul boxes.[k * 4] height,
                         Js.sub (Js.mul boxes.[k * 4 + 3] width)
                                (Js.mul boxes.[k * 4 + 1] width),
                         Js.sub (Js.mul boxes.[k * 4 + 2] height)
                                (Js.mul boxes.[k * 4] height));
                class := displayName entry;
                score := scores.[k] |}.
Proof.
  unfold detectedObject, classEntry. rewrite Z.add_0_r.
  destruct (Js.at_ classes k ≫= _) as [entry|]; [|done].
  intros [= <-]. eauto.
Qed.

(** The assembler returns a list exactly when the class lookup succeeds for
    every kept index: one kept index that lies outside the [classes] array,
    or whose class index plus one is no key of the table, makes the whole
    call throw, whatever the other kept indices are. *)
Theorem assembler_returns_iff_all_classes_found
    CLASSES width height boxes scores indexes classes :
  (∃ objects,
     buildDetectedObjects CLASSES width height boxes scores indexes classes
     = Returns objects)
  ↔ ∀ k, k ∈ indexes → is_Some (classEntry CLASSES classes k).
Proof.
  rewrite buildDetectedObjects_traverse. split.
  - intros [objects Hobjects] k Hk.
    apply traverse_Returns in Hobjects.
    apply list_elem_of_lookup in Hk as [p Hp].
    destruct (Forall2_lookup_l _ _ _ _ _ Hobjects Hp) as (object & _ & Hobject).
    apply detectedObject_Returns in Hobject as (entry & -> & _). eauto.
  - intros Hok. apply traverse_total. intros k Hk.
    destruct (Hok k Hk) as [entry Hentry].
    unfold detectedObject. unfold classEntry in Hentry. rewrite Hentry. eauto.
Qed.

(** A kept index at which the [classes] array has nothing makes the
    assembler throw. *)
Theorem kept_index_outside_classes_throws
    CLASSES width height boxes scores indexes classes k :
  k ∈ indexes → (k < 0 ∨ Z.of_nat (length classes) ≤ k) →
  ∃ e, buildDetectedObjects CLASSES width height boxes scores indexes classes
       = Throws e.
Proof.
  intros Hk Hout. rewrite buildDetectedObjects_traverse.
  apply (traverse_Throws _ indexes k TypeError_undefined); [done|].
  unfold detectedObject.
  assert (Js.at_ classes k = None) as ->; [|done].
  unfold Js.at_. destruct (k <? 0) eqn:E; [done|].
  apply Z.ltb_ge in E. apply lookup_ge_None. lia.
Qed.

Lemma kept_index_outside_classes_throws_witness :
  1 ∈ [0; 1] ∧ (1 < 0 ∨ Z.of_nat (length [1]) ≤ 1) ∧
  ∃ e, buildDetectedObjects sampleClasses (Js.of_Z 640) (Js.of_Z 480)
         (data ssdBoxes) [frac 9 10; frac 4 10] [0; 1] [1] = Throws e.
Proof.
  assert (H1 : 1 ∈ [0; 1]) by (apply list_elem_of_In; simpl; tauto).
  assert (H2 : 1 < 0 ∨ Z.of_nat (length [1]) ≤ 1) by (right; simpl; lia).
  split; [exact H1|]. split; [exact H2|].
  exact (kept_index_outside_classes_throws sampleClasses (Js.of_Z 640) (Js.of_Z 480)
           (data ssdBoxes) [frac 9 10; frac 4 10] [0; 1] [1] 1 H1 H2).
Defined.

(** Box bounds are not checked: for a kept index whose box lies outside the
    [boxes] buffer the assembler, when it returns, emits an object whose
    four [bbox] entries are [NaN]. *)
Theorem kept_index_outside_boxes_gives_nan_bbox
    CLASSES width height boxes scores indexes classes objects :
  buildDetectedObjects CLASSES width height boxes scores indexes classes
  = Returns objects →
  Forall2 (λ k object,
    k < 0 ∨ Z.of_nat (length boxes) ≤ k * 4 →
    bbox object = (None, None, None, None)) indexes objects.
Proof.
  rewrite buildDetectedObjects_traverse, traverse_Returns.
  intros H. eapply Forall2_impl; [exact H|].
  intros k object Hobject Hout. simpl in Hobject.
  apply detectedObject_Returns in Hobject as (entry & _ & ->). simpl.
  assert (Hnone : ∀ r, 0 ≤ r < 4 → boxes.[k * 4 + r] = None).
  { intros r Hr. unfold Js.get. destruct (k * 4 + r <? 0) eqn:E; [done|].
    apply Z.ltb_ge in E. rewrite (proj2 (lookup_ge_None _ _)); [done|]. lia. }
  pose proof (Hnone 0) as H0. rewrite Z.add_0_r in H0.
  by rewrite H0, !Hnone by lia.
Qed.

Lemma kept_index_outside_boxes_gives_nan_bbox_witness :
  buildDetectedObjects sampleClasses (Js.of_Z 640) (Js.of_Z 480)
    [] [frac 9 10] [0] [1]
  = Returns [ {| bbox := (None, None, None, None); class := "bicycle";
                 score := frac 9 10 |} ] ∧
  Forall2 (λ k object,
    k < 0 ∨ Z.of_nat (length (@nil Js.num)) ≤ k * 4 →
    bbox object = (None, None, None, None)) [0]
    [ {| bbox := (None, None, None, None); class := "bicycle"; score := frac 9 10 |} ].
Proof.
  assert (H : buildDetectedObjects sampleClasses (Js.of_Z 640) (Js.of_Z 480)
                [] [frac 9 10] [0] [1]
              = Returns [ {| bbox := (None, None, None, None); class := "bicycle";
                             score := frac 9 10 |} ]) by reflexivity.
  split; [exact H|].
  exact (kept_index_outside_boxes_gives_nan_bbox sampleClasses (Js.of_Z 640)
           (Js.of_Z 480) [] [frac 9 10] [0] [1] _ H).
Defined.

Lemma buildDetectedObjects_fields
    CLASSES width height boxes scores indexes classes objects :
  buildDetectedObjects CLASSES width height boxes scores indexes classes
  = Returns objects →
  Forall2 (λ k object,
    bbox object = (Js.mul boxes.[k * 4 + 1] width,
                   Js.mul boxes.[k * 4] height,
                   Js.sub (Js.mul boxes.[k * 4 + 3] width)
                          (Js.mul boxes.[k * 4 + 1] width),
                   Js.sub (Js.mul boxes.[k * 4 + 2] height)
                          (Js.mul boxes.[k * 4] height)) ∧
    score object = scores.[k]) indexes objects.
Proof.
  rewrite buildDetectedObjects_traverse, traverse_Returns.
  intros H. eapply Forall2_impl; [exact H|].
  intros k object Hobject. simpl in Hobject.
  by apply detectedObject_Returns in Hobject as (entry & _ & ->).
Qed.

Section infer_more.
Variable CLASSES : gmap Z ObjectDetectionClass.
Variable suppress :
  Js.Float32Array → Z * Z → list Js.num → Z → Qc → Qc → outcome (list Z).

(** In the dense branch the boxes are scaled by the width and height of the
    image given to the call, and the score emitted for a kept index is the
    maximum class score of that anchor. *)
Theorem dense_bbox_uses_image_dimensions base img result t0 t1 n c r cols
    maxNumBoxes nmsThresh minScore inputSize indexes objects :
  base ≠ "yolov5s" →
  ssdOutput result t0 t1 n c r cols →
  suppress (data t1) (r, cols) (calculateMaxScores (data t0) n c).1
    maxNumBoxes nmsThresh minScore = Returns indexes →
  detect CLASSES suppress base img result maxNumBoxes nmsThresh minScore inputSize
  = Returns objects →
  Forall2 (λ k object,
    let width := Js.of_Z (imgWidth img) in
    let height := Js.of_Z (imgHeight img) in
    let minY := Js.mul (data t1).[k * 4] height in
    let minX := Js.mul (data t1).[k * 4 + 1] width in
    let maxY := Js.mul (data t1).[k * 4 + 2] height in
    let maxX := Js.mul (data t1).[k * 4 + 3] width in
    bbox object = (minX, minY, Js.sub maxX minX, Js.sub maxY minY) ∧
    score object = (calculateMaxScores (data t0) n c).1.[k]) indexes objects.
Proof.
  intros Hbase Hout Hkept. unfold detect.
  rewrite (infer_ssd_base _ _ _ _ _ t0 t1 n c r cols) by done.
  rewrite Hkept. simpl. apply buildDetectedObjects_fields.
Qed.


(** An exception of the suppression stage is not caught: either branch ends
    in the same exception. *)
Theorem suppression_exception_propagates e :
  (∀ img result t n w maxNumBoxes nmsThresh minScore inputSize,
     yolov5Output result t n w →
     suppress (getBoxesYoloV5 (data t) n (w - 5) inputSize) (n, 4)
       (getConfidenceYoloV5 (data t) n (w - 5)) maxNumBoxes nmsThresh minScore
     = Throws e →
     detect CLASSES suppress "yolov5s" img result maxNumBoxes nmsThresh minScore inputSize
     = Throws e) ∧
  (∀ base img result t0 t1 n c r cols maxNumBoxes nmsThresh minScore inputSize,
     base ≠ "yolov5s" →
     ssdOutput result t0 t1 n c r cols →
     suppress (data t1) (r, cols) (calculateMaxScores (data t0) n c).1
       maxNumBoxes nmsThresh minScore
     = Throws e →
     detect CLASSES suppress base img result maxNumBoxes nmsThresh minScore inputSize
     = Throws e).
Proof.
  split.
  - intros * Hout Hkept. unfold detect.
    rewrite (infer_yolov5s _ _ _ _ t n w) by done. by rewrite Hkept.
  - intros * Hbase Hout Hkept. unfold detect.
    rewrite (infer_ssd_base _ _ _ _ _ t0 t1 n c r cols) by done. by rewrite Hkept.
Qed.

(** Both branches read [result[1]]: an answer of the engine with fewer than
    two tensors makes the call throw, whatever the base. *)
Theorem fewer_than_two_tensors_throws base img result
    maxNumBoxes nmsThresh minScore inputSize :
  (length result < 2)%nat →
  ∃ e, detect CLASSES suppress base img result maxNumBoxes nmsThresh minScore
         inputSize = Throws e.
Proof.
  intros Hlen. unfold detect, infer.
  destruct result as [|t0 [|t1 rest]]; [| |simpl in Hlen; lia];
    case_decide; unfold infer_yolov5, infer_ssd; simpl; eauto.
Qed.
End infer_more.

Lemma dense_bbox_uses_image_dimensions_witness :
  "lite_mobilenet_v2"%string ≠ "yolov5s"%string ∧
  ssdOutput ssdSample ssdScores ssdBoxes 2 3 2 4 ∧
  Suppressor.suppress (data ssdBoxes) (2, 4) (calculateMaxScores (data ssdScores) 2 3).1
    20 half half = Returns [0] ∧
  detect sampleClasses Suppressor.suppress "lite_mobilenet_v2"
    {| imgWidth := 640; imgHeight := 480 |} ssdSample 20 half half (Js.of_Z 640)
  = Returns [ssdSampleObject] ∧
  Forall2 (λ k object,
    let width := Js.of_Z 640 in
    let height := Js.of_Z 480 in
    let minY := Js.mul (data ssdBoxes).[k * 4] height in
    let minX := Js.mul (data ssdBoxes).[k * 4 + 1] width in
    let maxY := Js.mul (data ssdBoxes).[k * 4 + 2] height in
    let maxX := Js.mul (data ssdBoxes).[k * 4 + 3] width in
    bbox object = (minX, minY, Js.sub maxX minX, Js.sub maxY minY) ∧
    score object = (calculateMaxScores (data ssdScores) 2 3).1.[k])
    [0] [ssdSampleObject].
Proof.
  assert (Hb : "lite_mobilenet_v2"%string ≠ "yolov5s"%string) by discriminate.
  split; [exact Hb|]. split; [exact ssdSample_output|].
  split; [exact ssdSample_kept|]. split; [exact ssdSample_detected|].
  exact (dense_bbox_uses_image_dimensions sampleClasses Suppressor.suppress
           "lite_mobilenet_v2" {| imgWidth := 640; imgHeight := 480 |} ssdSample
           ssdScores ssdBoxes 2 3 2 4 20 half half (Js.of_Z 640) [0] [ssdSampleObject]
           Hb ssdSample_output ssdSample_kept ssdSample_detected).
Defined.


Lemma suppression_exception_propagates_witness :
  detect sampleClasses Suppressor.suppress "yolov5s"
    {| imgWidth := 640; imgHeight := 480 |} [emptyRow; emptyRow] 20 half half
    (Js.of_Z 640) = Throws "Error: not a number" ∧
  detect sampleClasses Suppressor.suppress "lite_mobilenet_v2"
    {| imgWidth := 640; imgHeight := 480 |} [ssdScores; noBoxes] 20 half half
    (Js.of_Z 640) = Throws "Error: shape mismatch".
Proof.
  split.
  - apply (proj1 (suppression_exception_propagates sampleClasses Suppressor.suppress
                    "Error: not a number") _ _ emptyRow 1 7).
    + by repeat split.
    + vm_compute. reflexivity.
  - apply (proj2 (suppression_exception_propagates sampleClasses Suppressor.suppress
                    "Error: shape mismatch") _ _ _ ssdScores noBoxes 2 3 2 4).
    + discriminate.
    + by repeat split.
    + vm_compute. reflexivity.
Defined.

Lemma fewer_than_two_tensors_throws_witness :
  (length [yolov5Row] < 2)%nat ∧
  ∃ e, detect sampleClasses Suppressor.suppress "yolov5s"
         {| imgWidth := 640; imgHeight := 480 |} [yolov5Row] 20 half half
         (Js.of_Z 640) = Throws e.
Proof.
  assert (H : (length [yolov5Row] < 2)%nat) by (simpl; lia).
  split; [exact H|].
  exact (fewer_than_two_tensors_throws sampleClasses Suppressor.suppress "yolov5s"
           {| imgWidth := 640; imgHeight := 480 |} [yolov5Row] 20 half half
           (Js.of_Z 640) H).
Defined.




(** ** Where the model is loaded from *)

Lemma string_length_append (a b : string) :
  String.length (a +:+ b) = (String.length a + String.length b)%nat.
Proof. induction a as [|c a IH]; simpl; [done|]. by rewrite IH. Qed.

Lemma string_append_cancel_l (s a b : string) : s +:+ a = s +:+ b → a = b.
Proof. induction s as [|c s IH]; simpl; [done|]. intros [= H]. by apply IH. Qed.

Lemma string_append_cancel_r (t a b : string) : a +:+ t = b +:+ t → a = b.
Proof.
  revert b. induction a as [|c a IH]; intros [|d b] H; simpl in H.
  - done.
  - apply (f_equal String.length) in H.
    rewrite !string_length_append in H. simpl in H. lia.
  - apply (f_equal String.length) in H.
    rewrite !string_length_append in H. simpl in H. lia.
  - injection H as -> H. f_equal. by apply IH.
Qed.

Lemma getPrefix_inj (b1 b2 : string) :
  Load.getPrefix b1 = Load.getPrefix b2 → b1 = b2.
Proof.
  unfold Load.getPrefix.
  destruct (decide (b1 = "lite_mobilenet_v2")) as [->|H1],
           (decide (b2 = "lite_mobilenet_v2")) as [->|H2]; simpl.
  - done.
  - intros H. by simplify_eq.
  - intros H. by simplify_eq.
  - intros H. by simplify_eq.
Qed.

Lemma model_path_by_base_facts :
  (∀ base url, url ≠ ""%string → Load.modelPath base (Some url) = url) ∧
  (∀ b1 b2 url, url = None ∨ url = Some ""%string →
     Load.modelPath b1 url = Load.modelPath b2 url → b1 = b2).
Proof.
  split.
  - intros base url Hurl. unfold Load.modelPath, Load.or_else.
    by rewrite decide_False.
  - intros b1 b2 url [-> | ->]; unfold Load.modelPath, Load.or_else;
      rewrite ?decide_True by done; intros H;
      apply string_append_cancel_l, string_append_cancel_r in H;
      by apply getPrefix_inj.
Qed.



(** [load] falls back to 'lite_mobilenet_v2' when the configuration names no
    base or an empty one and checks no name: without a custom URL, two
    configurations load from the same path exactly when they name the same
    base once that default is applied. *)
Theorem load_same_path_iff_same_base c1 c2 :
  Load.modelUrl c1 = None → Load.modelUrl c2 = None →
  Load.load_modelPath c1 = Load.load_modelPath c2
  ↔ Load.or_else (Load.base c1) "lite_mobilenet_v2"
    = Load.or_else (Load.base c2) "lite_mobilenet_v2".
Proof.
  intros H1 H2. unfold Load.load_modelPath. rewrite H1, H2. split.
  - apply (proj2 model_path_by_base_facts _ _ None). by left.
  - by intros ->.
Qed.

Lemma load_same_path_iff_same_base_witness :
  Load.modelUrl {| Load.base := None; Load.modelUrl := None;
                   Load.inputSize := None |} = None ∧
  Load.modelUrl {| Load.base := Some ""%string; Load.modelUrl := None;
                   Load.inputSize := Some 640 |} = None ∧
  (Load.load_modelPath {| Load.base := None; Load.modelUrl := None;
                          Load.inputSize := None |}
   = Load.load_modelPath {| Load.base := Some ""%string; Load.modelUrl := None;
                            Load.inputSize := Some 640 |}
   ↔ Load.or_else None "lite_mobilenet_v2"
     = Load.or_else (Some ""%string) "lite_mobilenet_v2").
Proof.
  split; [reflexivity|]. split; [reflexivity|].
  exact (load_same_path_iff_same_base
           {| Load.base := None; Load.modelUrl := None; Load.inputSize := None |}
           {| Load.base := Some ""%string; Load.modelUrl := None;
              Load.inputSize := Some 640 |} eq_refl eq_refl).
Defined.

(** ** The packed extractor through the dense one *)

Lemma get_classFieldsOnly scores numBoxes numClasses i j :
  0 ≤ i < numBoxes → 0 ≤ j < numClasses →
  (classFieldsOnly scores numBoxes numClasses).[i * numClasses + j]
  = scores.[packedClassSlot i numClasses j].
Proof.
  intros Hi Hj. rewrite <- get_rowClassFields by done.
  unfold Js.get, classFieldsOnly.
  replace (i * numClasses + j <? 0) with false by (symmetry; apply Z.ltb_ge; nia).
  replace (j <? 0) with false by (symmetry; apply Z.ltb_ge; lia).
  replace (Z.to_nat (i * numClasses + j))
    with (Z.to_nat i * Z.to_nat numClasses + Z.to_nat j)%nat by nia.
  set (ls := rowClassFields scores numClasses <$> seqZ 0 numBoxes).
  assert (Hlen : Forall (λ l, length l = Z.to_nat numClasses) ls).
  { apply Forall_fmap, Forall_forall. intros x _. simpl.
    unfold rowClassFields. by rewrite length_fmap, length_seqZ. }
  assert (Hrow : ls !! Z.to_nat i = Some (rowClassFields scores numClasses i)).
  { unfold ls. rewrite list_lookup_fmap, (lookup_seqZ_lt 0 numBoxes) by lia.
    simpl. do 2 f_equal. lia. }
  destruct (rowClassFields scores numClasses i !! Z.to_nat j) as [v|] eqn:Ev.
  - assert (mjoin ls !! (Z.to_nat i * Z.to_nat numClasses + Z.to_nat j)%nat = Some v)
      as ->; [|done].
    apply (join_lookup_Some_same_length' (Z.to_nat numClasses)); [done|lia|]. eauto.
  - apply lookup_ge_None in Ev. unfold rowClassFields in Ev.
    rewrite length_fmap, length_seqZ in Ev. lia.
Qed.

(** The packed extractor is the dense extractor run on the buffer that is
    left when the four box fields and the confidence are taken out of every
    row. *)
Theorem packed_extractor_is_dense_on_class_fields scores numBoxes numClasses :
  calculateMaxScoresYolov5 scores numBoxes numClasses
  = (calculateMaxScores (classFieldsOnly scores numBoxes numClasses)
       numBoxes numClasses).2.
Proof.
  rewrite calculateMaxScoresYolov5_unfold, calculateMaxScores_unfold. simpl.
  apply list_fmap_ext. intros p i Hp. simpl. f_equal.
  apply lookup_seqZ in Hp as [-> Hp].
  unfold yolov5Scan, denseScan, Js.for_lt.
  apply for_from_ext. intros k st Hk. f_equal.
  rewrite get_classFieldsOnly by lia.
  by rewrite yolov5ScoreIndex_packedClassSlot.
Qed.
